(** * lead-scorer: the workflow core

    A shallow embedding of [core/base_workflow.py] and
    [core/config_manager.py]: the exponential-backoff retry decorator
    (RFR Level 1), the abstract workflow with its tenant validation and its
    Level-4 alert helper, the cached settings accessor and the per-tenant
    context.

    Python code is embedded by explicit state passing.  Every operation
    takes the state of the interpreter it runs in (a [World]: the ordered
    trace of what was logged, slept and called, the object allocator and
    the process environment) and returns an [Outcome] (a value, or the
    exception object that was raised) together with the new state. *)

From Stdlib Require Import ZArith QArith Lia String Ascii DecimalString.
From stdpp Require Import base strings list gmap.

Open Scope string_scope.
Open Scope list_scope.
Open Scope Z_scope.

(** ** The Python runtime the two modules rely on *)

Module Py.

(** Values that reach the core as arguments.  [PyObj] stands for an object
    of any other type (a list, a dict, a float, a user object ...), given
    by the two things the core may ask of it: [bool(o)] and [str(o)]. *)
Inductive PyVal :=
| PyNone
| PyBool (b : bool)
| PyInt (z : Z)
| PyStr (s : string)
| PyObj (truth : bool) (text : string).

#[global] Instance PyVal_eq_dec : EqDecision PyVal.
Proof. solve_decision. Defined.

(** [bool(v)], as used by [not v] and [v or d]. *)
Definition truthy (v : PyVal) : bool :=
  match v with
  | PyNone => false
  | PyBool b => b
  | PyInt z => negb (z =? 0)
  | PyStr s => negb (String.eqb s EmptyString)
  | PyObj t _ => t
  end.

(** [isinstance(v, str)]. *)
Definition isinstance_str (v : PyVal) : bool :=
  match v with
  | PyStr _ => true
  | _ => false
  end.

(** [str(z)] for an [int]. *)
Definition str_int (z : Z) : string := NilZero.string_of_int (Z.to_int z).

(** [{v}] inside an f-string: [format(v)] with no format spec, which is [str(v)]. *)
Definition format (v : PyVal) : string :=
  match v with
  | PyNone => "None"
  | PyBool true => "True"
  | PyBool false => "False"
  | PyInt z => str_int z
  | PyStr s => s
  | PyObj _ t => t
  end.

(** A [Dict[str, Any]] keeps its insertion order, which is the order
    [str(d)] prints it in. *)
Definition Dict := list (string * PyVal).

(** What Python itself decides and the repository's code only calls:
    [repr] of a value (quoting and escaping of strings included) and the
    text of a number ([1], [0.1], [0.4] ...) inside an f-string. *)
Class Builtins := {
  repr : PyVal -> string;
  str_number : Q -> string
}.

Fixpoint join (sep : string) (l : list string) : string :=
  match l with
  | [] => EmptyString
  | [x] => x
  | x :: l' => x +:+ sep +:+ join sep l'
  end.

(** [str(d)] for a dict: ["{k1!r: v1!r, k2!r: v2!r}"]. *)
Definition str_dict `{Builtins} (d : Dict) : string :=
  "{" +:+ join ", " (map (fun kv => repr (PyStr kv.1) +:+ ": " +:+ repr kv.2) d)
      +:+ "}".

(** *** Exception classes and exception objects *)

(** The built-in classes the core meets, and [Subclass name base] for any
    class derived (directly) from [base]. *)
Inductive ExcClass :=
| BaseException
| Exception
| SystemExit
| KeyboardInterrupt
| GeneratorExit
| ValueError
| AttributeError
| Subclass (name : string) (base : ExcClass).

#[global] Instance ExcClass_eq_dec : EqDecision ExcClass.
Proof. solve_decision. Defined.

(** The method resolution order of a class, itself first. *)
Fixpoint mro (c : ExcClass) : list ExcClass :=
  c :: match c with
       | BaseException => []
       | Exception | SystemExit | KeyboardInterrupt | GeneratorExit =>
           [BaseException]
       | ValueError | AttributeError => [Exception; BaseException]
       | Subclass _ base => mro base
       end.

Definition issubclass (c d : ExcClass) : bool := bool_decide (d ∈ mro c).

(** An exception object: its class, [str(e)], and the identity of the
    object ([id(e)]): two records are equal only when they are the same
    object. *)
Record PyExc := {
  exc_class : ExcClass;
  exc_str : string;
  exc_id : nat
}.

Definition isinstance (e : PyExc) (c : ExcClass) : bool :=
  issubclass (exc_class e) c.

(** [except classes as e]: [e] is caught when it is an instance of one of
    the classes of the tuple. *)
Definition except_matches (classes : list ExcClass) (e : PyExc) : bool :=
  existsb (isinstance e) classes.

Inductive Outcome (A : Type) :=
| Return (a : A)
| Raise (e : PyExc).
Arguments Return {A} a.
Arguments Raise {A} e.

(** *** Logging, time and the interpreter state *)

Inductive Level := INFO | WARNING | ERROR | CRITICAL.

#[global] Instance Level_eq_dec : EqDecision Level.
Proof. solve_decision. Defined.

Record LogRecord := {
  log_name : string;
  log_level : Level;
  log_msg : string
}.

(** What the core does to the outside, in the order it does it. *)
Inductive Event :=
| Call (name : string)
| Sleep (seconds : Q)
| Log (r : LogRecord).

Record World := {
  trace : list Event;
  next_id : nat;
  environ : gmap string string
}.

Definition emit (ev : Event) (w : World) : World :=
  {| trace := trace w ++ [ev]; next_id := next_id w; environ := environ w |}.

(** [cls(text)]: a new exception object. *)
Definition new_exc (c : ExcClass) (text : string) (w : World) : PyExc * World :=
  ({| exc_class := c; exc_str := text; exc_id := next_id w |},
   {| trace := trace w; next_id := S (next_id w); environ := environ w |}).

(** [logging.getLogger(name)]. *)
Record Logger := { logger_name : string }.

Definition getLogger (name : string) : Logger := {| logger_name := name |}.

Definition log_at (lvl : Level) (lg : Logger) (msg : string) (w : World) : World :=
  emit (Log {| log_name := logger_name lg; log_level := lvl; log_msg := msg |}) w.

Definition info := log_at INFO.
Definition warning := log_at WARNING.
Definition error := log_at ERROR.
Definition critical := log_at CRITICAL.

(** [time.sleep(seconds)]: blocks for the duration; a negative duration
    is refused with a [ValueError].  Durations are exact rationals. *)
Definition time_sleep (seconds : Q) (w : World) : Outcome unit * World :=
  if Qle_bool 0 seconds then (Return tt, emit (Sleep seconds) w)
  else
    let '(e, w1) := new_exc ValueError "sleep length must be non-negative" w in
    (Raise e, w1).

(** Reading the trace. *)
Fixpoint calls (t : list Event) : nat :=
  match t with
  | [] => O
  | Call _ :: t' => S (calls t')
  | _ :: t' => calls t'
  end.

Fixpoint sleeps (t : list Event) : list Q :=
  match t with
  | [] => []
  | Sleep q :: t' => q :: sleeps t'
  | _ :: t' => sleeps t'
  end.

Fixpoint logs (t : list Event) : list LogRecord :=
  match t with
  | [] => []
  | Log r :: t' => r :: logs t'
  | _ :: t' => logs t'
  end.


End Py.

Import Py.

(** ** core/base_workflow.py *)

Module base_workflow.

(** [logger = logging.getLogger(__name__)]. *)
Definition logger : Logger := getLogger "core.base_workflow".

(** A callable to be decorated: its [__name__] and its body.  The
    arguments of one call of the wrapper are fixed, so the body is a
    function of the state [St] the callable works on (everything it can
    read or change), returning a result of type [R] or raising. *)
Record Func (R St : Type) := {
  __name__ : string;
  body : St -> Outcome R * St
}.
Arguments __name__ {R St} f.
Arguments body {R St} f.

Section retry_with_backoff.
Context `{Builtins} {R St : Type}.
Variable retries : Z.
Variable backoff_in_seconds : Q.
Variable exceptions : list ExcClass.
Variable func : Func R St.

(** The [while True] loop of [wrapper], [x] being its counter.  [fuel]
    bounds the number of iterations looked at: [None] says the loop is
    still running after that many. *)
Fixpoint wrapper_loop (fuel : nat) (x : Z) (s : St) (w : World)
  : option (Outcome R * St * World) :=
  match fuel with
  | O => None
  | S fuel' =>
      let '(res, s1) := body func s in
      let w1 := emit (Call (__name__ func)) w in
      match res with
      | Return r => Some (Return r, s1, w1)
      | Raise e =>
          if except_matches exceptions e then
            if x =? retries then
              let w2 :=
                error logger
                  ("RFR Level 1 failed for " +:+ __name__ func +:+ " after "
                     +:+ str_int retries +:+ " retries.") w1 in
              Some (Raise e, s1, w2)
            else
              let sleep := (backoff_in_seconds * inject_Z (2 ^ x))%Q in
              let w2 :=
                warning logger
                  ("Retrying " +:+ __name__ func +:+ " in " +:+ str_number sleep
                     +:+ "s (Attempt " +:+ str_int (x + 1) +:+ "/"
                     +:+ str_int retries +:+ ") due to " +:+ exc_str e) w1 in
              match time_sleep sleep w2 with
              | (Raise e', w3) => Some (Raise e', s1, w3)
              | (Return _, w3) => wrapper_loop fuel' (x + 1) s1 w3
              end
          else Some (Raise e, s1, w1)
      end
  end.

(** One call of [wrapper]: [x = 0], then the loop. *)
Definition wrapper (fuel : nat) (s : St) (w : World)
  : option (Outcome R * St * World) :=
  wrapper_loop fuel 0 s w.
End retry_with_backoff.

(** [retry_with_backoff(retries=3, backoff_in_seconds=1,
    exceptions=(Exception,))(func)]; [None] is a keyword left out. *)
Definition retry_with_backoff `{Builtins} {R St : Type}
    (retries : option Z) (backoff_in_seconds : option Q)
    (exceptions : option (list ExcClass)) (func : Func R St) :=
  wrapper (default 3 retries) (default 1%Q backoff_in_seconds)
          (default [Exception] exceptions) func.

Module BaseWorkflow.

(** An instance of a concrete subclass named [class_name]; an attribute
    is [None] until it is assigned. *)
Record Instance := {
  class_name : string;
  org_id : option PyVal;
  logger : option Logger
}.

(** [object.__new__(cls)]: no attribute yet. *)
Definition __new__ (cls : string) : Instance :=
  {| class_name := cls; org_id := None; logger := None |}.

(** [self.name], which raises [AttributeError] on a missing attribute. *)
Definition getattr {A : Type} (self : Instance) (name : string)
    (field : option A) (w : World) : Outcome A * World :=
  match field with
  | Some a => (Return a, w)
  | None =>
      let '(e, w1) :=
        new_exc AttributeError
          ("'" +:+ class_name self +:+ "' object has no attribute '"
             +:+ name +:+ "'") w in
      (Raise e, w1)
  end.

Definition __init__ (self : Instance) (org_id : PyVal) (w : World)
  : Outcome unit * Instance * World :=
  if negb (truthy org_id) || negb (isinstance_str org_id) then
    let '(e, w1) :=
      new_exc ValueError
        "A valid 'org_id' must be provided to initialize a workflow." w in
    (Raise e, self, w1)
  else
    let self1 :=
      {| class_name := class_name self; org_id := Some org_id;
         logger := logger self |} in
    let lg := getLogger (class_name self +:+ "[" +:+ format org_id +:+ "]") in
    let self2 :=
      {| class_name := class_name self1; org_id := BaseWorkflow.org_id self1;
         logger := Some lg |} in
    let w1 := info lg ("Initialized workflow for Org: " +:+ format org_id) w in
    (Return tt, self2, w1).

(** [cls(org_id)]: allocate, initialise, and hand the instance out only
    when [__init__] returned. *)
Definition construct (cls : string) (org_id : PyVal) (w : World)
  : Outcome Instance * World :=
  match __init__ (__new__ cls) org_id w with
  | (Raise e, _, w1) => (Raise e, w1)
  | (Return _, self, w1) => (Return self, w1)
  end.

Definition rfr_level_4_alert `{Builtins} (self : Instance) (message : string)
    (context : option Dict) (w : World) : Outcome unit * Instance * World :=
  let error_context :=
    match context with
    | Some ((_ :: _) as d) => d
    | Some [] | None => []
    end in
  match getattr self "logger" (logger self) w with
  | (Raise e, w1) => (Raise e, self, w1)
  | (Return lg, w1) =>
      match getattr self "org_id" (org_id self) w1 with
      | (Raise e, w2) => (Raise e, self, w2)
      | (Return org, w2) =>
          let w3 :=
            critical lg
              ("RFR-L4 ALERT | Org: " +:+ format org +:+ " | Message: "
                 +:+ message +:+ " | Context: " +:+ str_dict error_context) w2 in
          (Return tt, self, w3)
      end
  end.

Definition log_partial_success (self : Instance) (step_name details : string)
    (w : World) : Outcome unit * Instance * World :=
  match getattr self "logger" (logger self) w with
  | (Raise e, w1) => (Raise e, self, w1)
  | (Return lg, w1) =>
      let w2 :=
        info lg ("Step '" +:+ step_name +:+ "' completed: " +:+ details) w1 in
      (Return tt, self, w2)
  end.

End BaseWorkflow.

End base_workflow.

(** ** core/config_manager.py *)

Module config_manager.

(** The fields of [Settings]. *)
Record Settings := {
  ENVIRONMENT : string;
  LOG_LEVEL : string;
  DOCKER_MODE : bool;
  POSTGRES_USER : string;
  POSTGRES_PASSWORD : string;
  POSTGRES_HOST : string;
  POSTGRES_PORT : Z;
  POSTGRES_DB : string;
  MINIO_HOST : string;
  MINIO_PORT : Z;
  MINIO_ROOT_USER : string;
  MINIO_ROOT_PASSWORD : string;
  RAW_DATA_BUCKET : string;
  MLFLOW_HOST : string;
  MLFLOW_PORT : Z;
  REDIS_HOST : string;
  REDIS_PORT : Z;
  OPENAI_API_KEY : option string;
  LLM_MODEL : string;
  SF_CLIENT_ID : option string;
  SF_CLIENT_SECRET : option string;
  SF_REDIRECT_URI : string
}.

(** The declared defaults. *)
Definition defaults : Settings := {|
  ENVIRONMENT := "development";
  LOG_LEVEL := "INFO";
  DOCKER_MODE := false;
  POSTGRES_USER := "admin";
  POSTGRES_PASSWORD := "password";
  POSTGRES_HOST := "localhost";
  POSTGRES_PORT := 5432;
  POSTGRES_DB := "lead_scorer_db";
  MINIO_HOST := "localhost";
  MINIO_PORT := 9000;
  MINIO_ROOT_USER := "admin";
  MINIO_ROOT_PASSWORD := "password";
  RAW_DATA_BUCKET := "raw-data";
  MLFLOW_HOST := "localhost";
  MLFLOW_PORT := 5000;
  REDIS_HOST := "localhost";
  REDIS_PORT := 6379;
  OPENAI_API_KEY := None;
  LLM_MODEL := "gpt-4-turbo-preview";
  SF_CLIENT_ID := None;
  SF_CLIENT_SECRET := None;
  SF_REDIRECT_URI := "http://localhost:8000/v1/auth/callback"
|}.

Definition DATABASE_URL (self : Settings) : string :=
  let host := if DOCKER_MODE self then "postgres" else POSTGRES_HOST self in
  "postgresql://" +:+ POSTGRES_USER self +:+ ":" +:+ POSTGRES_PASSWORD self
    +:+ "@" +:+ host +:+ ":" +:+ str_int (POSTGRES_PORT self) +:+ "/"
    +:+ POSTGRES_DB self.

Definition MINIO_ENDPOINT (self : Settings) : string :=
  let host := if DOCKER_MODE self then "minio" else MINIO_HOST self in
  host +:+ ":" +:+ str_int (MINIO_PORT self).

Definition MLFLOW_TRACKING_URI (self : Settings) : string :=
  let host := if DOCKER_MODE self then "mlflow" else MLFLOW_HOST self in
  "http://" +:+ host +:+ ":" +:+ str_int (MLFLOW_PORT self).

Definition REDIS_URL (self : Settings) : string :=
  let host := if DOCKER_MODE self then "redis" else REDIS_HOST self in
  "redis://" +:+ host +:+ ":" +:+ str_int (REDIS_PORT self) +:+ "/0".

(** What [pydantic_settings.BaseSettings] does when [Settings()] is
    called: read the process environment and the [.env] file over the
    declared defaults and validate the fields, which gives the field
    values or the text of a validation error. *)
Class SettingsSource := {
  load : gmap string string -> Settings -> string + Settings
}.

(** A [Settings] object: its identity and its field values. *)
Record SettingsObj := {
  settings_id : nat;
  fields : Settings
}.

(** [Settings()]. *)
Definition Settings_new `{SettingsSource} (w : World) : Outcome SettingsObj * World :=
  match load (environ w) defaults with
  | inl msg =>
      let '(e, w1) := new_exc (Subclass "ValidationError" ValueError) msg w in
      (Raise e, w1)
  | inr v =>
      (Return {| settings_id := next_id w; fields := v |},
       {| trace := trace w; next_id := S (next_id w); environ := environ w |})
  end.

(** [functools.lru_cache()] around a function without parameters: every
    call has the same key, so the cache is one slot.  A call that raises
    stores nothing. *)
Definition lru_cache {A : Type} (f : World -> Outcome A * World)
    (cache : option A) (w : World) : Outcome A * option A * World :=
  match cache with
  | Some a => (Return a, cache, w)
  | None =>
      match f w with
      | (Return a, w1) => (Return a, Some a, w1)
      | (Raise e, w1) => (Raise e, None, w1)
      end
  end.

Definition get_settings `{SettingsSource} := lru_cache Settings_new.

(** A run of the process: calls of [get_settings], with anything else
    happening to the interpreter state in between ([Other w]: the state
    it is left in). *)
Inductive Step :=
| GetSettings
| Other (w : World).

(** The outcomes of the calls of [get_settings] along a run, in order. *)
Fixpoint run `{SettingsSource} (steps : list Step) (cache : option SettingsObj)
    (w : World) : list (Outcome SettingsObj) :=
  match steps with
  | [] => []
  | GetSettings :: steps' =>
      let '(res, cache1, w1) := get_settings cache w in
      res :: run steps' cache1 w1
  | Other w1 :: steps' => run steps' cache w1
  end.

Definition get_org_context (org_id : PyVal) (w : World)
  : Outcome (gmap string PyVal) * World :=
  if negb (truthy org_id) then
    let '(e, w1) :=
      new_exc ValueError "org_id is required for isolation enforcement." w in
    (Raise e, w1)
  else
    (Return {[ "org_id" := org_id;
               "storage_prefix" := PyStr ("orgs/" +:+ format org_id +:+ "/");
               "log_prefix" := PyStr ("ALS[" +:+ format org_id +:+ "]") ]},
     w).

End config_manager.

(** ** tests/test_infrastructure.py: the workflow the tests run *)

Module test_infrastructure.

(** [MockWorkflow.failing_method], before decoration: every call raises a
    new [ValueError("Simulated Transient Failure")].  The state counts
    the objects raised so far, which names the next one. *)
Definition failing_method : base_workflow.Func unit nat := {|
  base_workflow.__name__ := "failing_method";
  base_workflow.body := fun k =>
    (Raise {| exc_class := ValueError;
              exc_str := "Simulated Transient Failure";
              exc_id := k |}, S k)
|}.

(** [MockWorkflow.execute]. *)
Definition execute (self : base_workflow.BaseWorkflow.Instance) (w : World)
  : Outcome string * World :=
  match base_workflow.BaseWorkflow.getattr self "org_id"
          (base_workflow.BaseWorkflow.org_id self) w with
  | (Raise e, w1) => (Raise e, w1)
  | (Return org, w1) => (Return ("Success for " +:+ format org), w1)
  end.

End test_infrastructure.

(** ** dashboard/app.py: the health checks of the management dashboard *)

Module dashboard_app.

(** A step of the script: it may change the interpreter state, and it
    returns or raises. *)
Definition Eff (A : Type) : Type := World -> Outcome A * World.

Definition ret {A : Type} (a : A) : Eff A := fun w => (Return a, w).

Definition bind {A B : Type} (m : Eff A) (k : A -> Eff B) : Eff B :=
  fun w =>
    match m w with
    | (Return a, w1) => k a w1
    | (Raise e, w1) => (Raise e, w1)
    end.

Notation "'run' x <~ m 'then' k" := (bind m (fun x => k))
  (at level 10, x name, m at level 100, k at level 200, only parsing).

(** [try: body / except Exception as e: handler(e)]. *)
Definition try_except_Exception {A : Type} (body : Eff A) (handler : PyExc -> Eff A)
  : Eff A :=
  fun w =>
    match body w with
    | (Return a, w1) => (Return a, w1)
    | (Raise e, w1) =>
        if isinstance e Exception then handler e w1 else (Raise e, w1)
    end.

(** The objects the client libraries hand back, by what the dashboard
    calls on them. *)
Record Connection := { close : Eff unit }.
Record S3Client := { list_buckets : Eff unit }.
Record Redis := { ping : Eff bool }.
Record Response := { status_code : Z }.

(** The client libraries the dashboard talks to the infrastructure with:
    [psycopg2.connect(dsn)], [boto3.client(service, endpoint_url=...,
    aws_access_key_id=..., aws_secret_access_key=...)],
    [redis.from_url(url)] and [requests.get(url, timeout=...)]. *)
Class Drivers := {
  psycopg2_connect : string -> Eff Connection;
  boto3_client : string -> string -> string -> string -> Eff S3Client;
  redis_from_url : string -> Eff Redis;
  requests_get : string -> Z -> Eff Response
}.

Section checks.
Context `{Drivers}.

(** The module-level [settings = get_settings()]: the values it holds. *)
Variable settings : config_manager.Settings.

Definition check_postgres : Eff (bool * string) :=
  try_except_Exception
    (run conn <~ psycopg2_connect (config_manager.DATABASE_URL settings) then
     run _r <~ close conn then
     ret (true, "Connected"))
    (fun e => ret (false, exc_str e)).

Definition check_minio : Eff (bool * string) :=
  try_except_Exception
    (run s3 <~ boto3_client "s3"
             ("http://" +:+ config_manager.MINIO_ENDPOINT settings)
             (config_manager.MINIO_ROOT_USER settings)
             (config_manager.MINIO_ROOT_PASSWORD settings) then
     run _r <~ list_buckets s3 then
     ret (true, "Connected"))
    (fun e => ret (false, exc_str e)).

Definition check_redis : Eff (bool * string) :=
  try_except_Exception
    (run r <~ redis_from_url (config_manager.REDIS_URL settings) then
     run _r <~ ping r then
     ret (true, "Connected"))
    (fun e => ret (false, exc_str e)).

Definition check_mlflow : Eff (bool * string) :=
  try_except_Exception
    (run response <~ requests_get (config_manager.MLFLOW_TRACKING_URI settings) 5 then
     if status_code response =? 200 then ret (true, "Connected")
     else ret (false, "Status: " +:+ str_int (status_code response)))
    (fun e => ret (false, exc_str e)).

Definition check_loki : Eff (bool * string) :=
  try_except_Exception
    (let loki_url :=
       "http://"
         +:+ (if config_manager.DOCKER_MODE settings then "loki" else "localhost")
         +:+ ":3100/ready" in
     run response <~ requests_get loki_url 5 then
     if status_code response =? 200 then ret (true, "Connected")
     else ret (false, "Status: " +:+ str_int (status_code response)))
    (fun e => ret (false, exc_str e)).

Definition check_prometheus : Eff (bool * string) :=
  try_except_Exception
    (let prom_url :=
       "http://"
         +:+ (if config_manager.DOCKER_MODE settings then "prometheus" else "localhost")
         +:+ ":9090/-/ready" in
     run response <~ requests_get prom_url 5 then
     if status_code response =? 200 then ret (true, "Connected")
     else ret (false, "Status: " +:+ str_int (status_code response)))
    (fun e => ret (false, exc_str e)).

(** What one [st.metric(label, value, delta=..., delta_color="inverse")]
    of the health tab is given. *)
Record Metric := {
  label : string;
  value : string;
  delta : option string;
  delta_color : string
}.

Definition metric (name : string) (result : bool * string) : Metric :=
  let '(status, msg) := result in
  {| label := name;
     value := if status then "Online" else "Offline";
     delta := if negb status then Some msg else None;
     delta_color := "inverse" |}.

(** The six columns of the tab "System Health": each runs its check and
    shows its metric, in this order. *)
Definition infrastructure_pulse : Eff (list Metric) :=
  run r1 <~ check_postgres then
  run r2 <~ check_minio then
  run r3 <~ check_redis then
  run r4 <~ check_mlflow then
  run r5 <~ check_loki then
  run r6 <~ check_prometheus then
  ret [metric "PostgreSQL (pgvector)" r1;
       metric "MinIO (S3)" r2;
       metric "Redis (Celery)" r3;
       metric "MLflow Registry" r4;
       metric "Loki (Logs)" r5;
       metric "Prometheus (Metrics)" r6].

End checks.

End dashboard_app.

(** ** Vocabulary of the statements *)

Import base_workflow.







(** The warning the wrapper logs before the retry that follows attempt
    [x + 1], and the error it logs when no retry is left. *)
Definition retry_warning `{Builtins} (name : string) (retries : Z) (d : Q) (x : Z)
    (e : PyExc) : LogRecord :=
  {| log_name := logger_name logger; log_level := WARNING;
     log_msg :=
       "Retrying " +:+ name +:+ " in " +:+ str_number (d * inject_Z (2 ^ x))%Q
         +:+ "s (Attempt " +:+ str_int (x + 1) +:+ "/" +:+ str_int retries
         +:+ ") due to " +:+ exc_str e |}.

Definition retry_error (name : string) (retries : Z) : LogRecord :=
  {| log_name := logger_name logger; log_level := ERROR;
     log_msg :=
       "RFR Level 1 failed for " +:+ name +:+ " after " +:+ str_int retries
         +:+ " retries." |}.

(** The world [w] after the events [t]. *)
Definition extend (w : World) (t : list Event) : World :=
  {| trace := trace w ++ t; next_id := next_id w; environ := environ w |}.

(** The core operations of a workflow, with their arguments. *)
Inductive CoreOp :=
| Alert (message : string) (context : option Dict)
| PartialSuccess (step_name details : string).

(** A sequence of core operations on one instance, each on the instance the
    previous one left, whatever it returned or raised. *)
Fixpoint run_ops `{Builtins} (ops : list CoreOp) (self : BaseWorkflow.Instance)
    (w : World) : BaseWorkflow.Instance * World :=
  match ops with
  | [] => (self, w)
  | Alert message context :: ops' =>
      let '(_, self1, w1) := BaseWorkflow.rfr_level_4_alert self message context w in
      run_ops ops' self1 w1
  | PartialSuccess step_name details :: ops' =>
      let '(_, self1, w1) := BaseWorkflow.log_partial_success self step_name details w in
      run_ops ops' self1 w1
  end.




(** [s] holds a ["/"]. *)
Fixpoint has_slash (s : string) : bool :=
  match s with
  | EmptyString => false
  | String c s' => Ascii.eqb c "/" || has_slash s'
  end.

(** The settings [s] with the four [*_HOST] fields set. *)
Definition with_hosts (postgres minio mlflow redis : string)
    (s : config_manager.Settings) : config_manager.Settings := {|
  config_manager.ENVIRONMENT := config_manager.ENVIRONMENT s;
  config_manager.LOG_LEVEL := config_manager.LOG_LEVEL s;
  config_manager.DOCKER_MODE := config_manager.DOCKER_MODE s;
  config_manager.POSTGRES_USER := config_manager.POSTGRES_USER s;
  config_manager.POSTGRES_PASSWORD := config_manager.POSTGRES_PASSWORD s;
  config_manager.POSTGRES_HOST := postgres;
  config_manager.POSTGRES_PORT := config_manager.POSTGRES_PORT s;
  config_manager.POSTGRES_DB := config_manager.POSTGRES_DB s;
  config_manager.MINIO_HOST := minio;
  config_manager.MINIO_PORT := config_manager.MINIO_PORT s;
  config_manager.MINIO_ROOT_USER := config_manager.MINIO_ROOT_USER s;
  config_manager.MINIO_ROOT_PASSWORD := config_manager.MINIO_ROOT_PASSWORD s;
  config_manager.RAW_DATA_BUCKET := config_manager.RAW_DATA_BUCKET s;
  config_manager.MLFLOW_HOST := mlflow;
  config_manager.MLFLOW_PORT := config_manager.MLFLOW_PORT s;
  config_manager.REDIS_HOST := redis;
  config_manager.REDIS_PORT := config_manager.REDIS_PORT s;
  config_manager.OPENAI_API_KEY := config_manager.OPENAI_API_KEY s;
  config_manager.LLM_MODEL := config_manager.LLM_MODEL s;
  config_manager.SF_CLIENT_ID := config_manager.SF_CLIENT_ID s;
  config_manager.SF_CLIENT_SECRET := config_manager.SF_CLIENT_SECRET s;
  config_manager.SF_REDIRECT_URI := config_manager.SF_REDIRECT_URI s
|}.

(** ** Concrete inputs to evaluate the definitions on *)

(** A stand-in for the interpreter's own printing: strings are quoted
    without escaping, numbers are printed as an integer or a fraction. *)
Definition plain_builtins : Builtins := {|
  repr := fun v =>
    match v with
    | PyStr s => "'" +:+ s +:+ "'"
    | _ => format v
    end;
  str_number := fun q =>
    if Z.pos (Qden q) =? 1 then str_int (Qnum q)
    else str_int (Qnum q) +:+ "/" +:+ str_int (Z.pos (Qden q))
|}.

(** A stand-in for the settings loader: the defaults, unless the
    environment sets [POSTGRES_PORT] to something that is not the default
    port, which it refuses. *)
Definition plain_source : config_manager.SettingsSource := {|
  config_manager.load := fun env d =>
    match env !! "POSTGRES_PORT" with
    | None => inr d
    | Some port =>
        if String.eqb port "5432" then inr d
        else inl "POSTGRES_PORT: Input should be a valid integer"
    end
|}.

(** The interpreter at start-up, and with a bad [POSTGRES_PORT] set. *)
Definition boot : World := {| trace := []; next_id := O; environ := ∅ |}.

Definition bad_port : World :=
  {| trace := []; next_id := 7; environ := {[ "POSTGRES_PORT" := "abc" ]} |}.

(** A callable that returns, and one that is interrupted from the
    keyboard. *)
Definition answer : Func string nat := {|
  __name__ := "answer";
  body := fun k => (Return "done", S k)
|}.

Definition interrupted : Func string nat := {|
  __name__ := "interrupted";
  body := fun k =>
    (Raise {| exc_class := KeyboardInterrupt; exc_str := EmptyString; exc_id := k |}, S k)
|}.

(** The workflow [MockWorkflow(org_id="org_42")] and the state its
    construction leaves. *)
Definition org_42 : BaseWorkflow.Instance :=
  {| BaseWorkflow.class_name := "MockWorkflow";
     BaseWorkflow.org_id := Some (PyStr "org_42");
     BaseWorkflow.logger := Some (getLogger "MockWorkflow[org_42]") |}.

Definition org_42_built : World :=
  extend boot
    [Log {| log_name := "MockWorkflow[org_42]"; log_level := INFO;
            log_msg := "Initialized workflow for Org: org_42" |}].

(** The workflow [MockWorkflow(org_id="org_7")] and the state its
    construction leaves. *)
Definition org_7 : BaseWorkflow.Instance :=
  {| BaseWorkflow.class_name := "MockWorkflow";
     BaseWorkflow.org_id := Some (PyStr "org_7");
     BaseWorkflow.logger := Some (getLogger "MockWorkflow[org_7]") |}.

Definition org_7_built : World :=
  extend boot
    [Log {| log_name := "MockWorkflow[org_7]"; log_level := INFO;
            log_msg := "Initialized workflow for Org: org_7" |}].

(** The first [Settings()] of the process: object [0], holding the
    defaults. *)
Definition first_settings : config_manager.SettingsObj :=
  {| config_manager.settings_id := 0; config_manager.fields := config_manager.defaults |}.



(** A stand-in for the infrastructure: Postgres is up, MinIO cannot be
    reached, Redis answers [False] to a ping, MLflow answers 200, Loki
    answers 503, and the request to anything else is interrupted from the
    keyboard. *)
Definition sample_drivers : dashboard_app.Drivers := {|
  dashboard_app.psycopg2_connect := fun dsn =>
    dashboard_app.ret {| dashboard_app.close := dashboard_app.ret tt |};
  dashboard_app.boto3_client := fun service endpoint_url key secret w =>
    let '(e, w1) :=
      new_exc (Subclass "EndpointConnectionError" Exception)
        ("Could not connect to the endpoint URL: " +:+ endpoint_url) w in
    (Raise e, w1);
  dashboard_app.redis_from_url := fun url =>
    dashboard_app.ret {| dashboard_app.ping := dashboard_app.ret false |};
  dashboard_app.requests_get := fun url timeout w =>
    if String.eqb url "http://localhost:5000" then
      (Return {| dashboard_app.status_code := 200 |}, w)
    else if String.eqb url "http://localhost:3100/ready" then
      (Return {| dashboard_app.status_code := 503 |}, w)
    else
      let '(e, w1) := new_exc KeyboardInterrupt EmptyString w in
      (Raise e, w1)
|}.

(** ** Reading traces *)







(** ** The schedule of an exhausted retry *)






(** ** The retry loop *)


Section retry_loop.
Context `{Builtins} {R St : Type}.
Variable retries : Z.
Variable backoff_in_seconds : Q.
Variable exceptions : list ExcClass.
Variable func : Func R St.




(** One attempt that succeeds ends the loop. *)
Lemma wrapper_loop_return (fuel : nat) (x : Z) (s s1 : St) (r : R) (w : World) :
  body func s = (Return r, s1) ->
  wrapper_loop retries backoff_in_seconds exceptions func (S fuel) x s w
  = Some (Return r, s1, extend w [Call (__name__ func)]).
Proof.
  intros Hb. simpl. now rewrite Hb.
Qed.

(** One attempt that raises what the handler does not catch ends it too. *)
Lemma wrapper_loop_uncaught (fuel : nat) (x : Z) (s s1 : St) (e : PyExc) (w : World) :
  body func s = (Raise e, s1) ->
  except_matches exceptions e = false ->
  wrapper_loop retries backoff_in_seconds exceptions func (S fuel) x s w
  = Some (Raise e, s1, extend w [Call (__name__ func)]).
Proof.
  intros Hb Hm. simpl. now rewrite Hb, Hm.
Qed.



End retry_loop.

(** ** The retry decorator (RFR Level 1) *)

Section retry_claims.
Context `{Builtins} {R St : Type}.

(** C6.  Whatever the configuration, when the first invocation of the
    operation returns [r], the wrapped operation returns that same [r]
    after this one invocation: the operation was called once, nothing
    was slept and nothing was logged. *)
Theorem retry_returns_first_result
    (retries : option Z) (backoff_in_seconds : option Q)
    (exceptions : option (list ExcClass)) (func : Func R St)
    (s s1 : St) (r : R) (w : World) (fuel : nat) :
  body func s = (Return r, s1) ->
  exists t,
    retry_with_backoff retries backoff_in_seconds exceptions func (S fuel) s w
    = Some (Return r, s1, extend w t) /\
    calls t = 1%nat /\ sleeps t = [] /\ logs t = [].
Proof.
  intros Hb. exists [Call (__name__ func)]. split; [|now simpl].
  unfold retry_with_backoff, wrapper. now apply wrapper_loop_return.
Qed.

(** C4.  Whatever the configuration, when the operation raises an
    exception that is no instance of the retryable classes, the wrapper
    has called it once, has not slept, has logged nothing, and raises
    that very exception. *)
Theorem retry_propagates_non_retryable
    (retries : option Z) (backoff_in_seconds : option Q)
    (exceptions : option (list ExcClass)) (func : Func R St)
    (s s1 : St) (e : PyExc) (w : World) (fuel : nat) :
  body func s = (Raise e, s1) ->
  except_matches (default [Exception] exceptions) e = false ->
  exists t,
    retry_with_backoff retries backoff_in_seconds exceptions func (S fuel) s w
    = Some (Raise e, s1, extend w t) /\
    calls t = 1%nat /\ sleeps t = [] /\ logs t = [].
Proof.
  intros Hb Hm. exists [Call (__name__ func)]. split; [|now simpl].
  unfold retry_with_backoff, wrapper. now apply wrapper_loop_uncaught.
Qed.



End retry_claims.

(** ** The workflow and its tenant *)



Lemma truthy_str (s : string) : truthy (PyStr s) = true <-> s <> EmptyString.
Proof.
  simpl. destruct (String.eqb_spec s EmptyString); simpl; split; congruence.
Qed.

Section workflow_claims.
Context `{Builtins}.

(** What a successful construction leaves: the tenant id is a non-empty
    string, and the two attributes hold it and the logger named after
    it. *)
Lemma construct_returns (cls : string) (v : PyVal) (w w1 : World)
    (self : BaseWorkflow.Instance) :
  BaseWorkflow.construct cls v w = (Return self, w1) ->
  exists tenant,
    v = PyStr tenant /\ tenant <> EmptyString /\
    self = {| BaseWorkflow.class_name := cls;
              BaseWorkflow.org_id := Some (PyStr tenant);
              BaseWorkflow.logger :=
                Some (getLogger (cls +:+ "[" +:+ tenant +:+ "]")) |}.
Proof.
  unfold BaseWorkflow.construct, BaseWorkflow.__init__.
  destruct v as [| b | z | s | t txt]; simpl;
    try (rewrite ?orb_true_r; simpl; discriminate).
  destruct (String.eqb_spec s EmptyString) as [->|Hs]; simpl; [discriminate|].
  intros [= <- _]. now exists s.
Qed.

(** The two helpers hand the instance back as they found it. *)
Lemma rfr_level_4_alert_self (self : BaseWorkflow.Instance) (message : string)
    (context : option Dict) (w : World) :
  (BaseWorkflow.rfr_level_4_alert self message context w).1.2 = self.
Proof.
  unfold BaseWorkflow.rfr_level_4_alert, BaseWorkflow.getattr.
  destruct (BaseWorkflow.logger self), (BaseWorkflow.org_id self); reflexivity.
Qed.

Lemma log_partial_success_self (self : BaseWorkflow.Instance)
    (step_name details : string) (w : World) :
  (BaseWorkflow.log_partial_success self step_name details w).1.2 = self.
Proof.
  unfold BaseWorkflow.log_partial_success, BaseWorkflow.getattr.
  destruct (BaseWorkflow.logger self); reflexivity.
Qed.

Lemma run_ops_self (ops : list CoreOp) (self : BaseWorkflow.Instance) (w : World) :
  (run_ops ops self w).1 = self.
Proof.
  revert self w. induction ops as [|[message context | step_name details] ops IH];
    intros self w; simpl; [reflexivity| |].
  - pose proof (rfr_level_4_alert_self self message context w) as Hs.
    destruct (BaseWorkflow.rfr_level_4_alert self message context w) as [[o self1] w1].
    simpl in Hs. subst self1. apply IH.
  - pose proof (log_partial_success_self self step_name details w) as Hs.
    destruct (BaseWorkflow.log_partial_success self step_name details w)
      as [[o self1] w1].
    simpl in Hs. subst self1. apply IH.
Qed.


(** C5.  Constructing a workflow on a tenant id that is the empty string,
    [None], or not a [str] raises [ValueError] (the spec's
    ValidationError): no instance is returned, [__init__] has set no
    attribute on the one it was given, and nothing was logged.  On a
    non-empty string it returns an instance whose [org_id] is that
    string. *)
Theorem construct_validates_org_id (cls : string) (v : PyVal) (w : World) :
  (v = PyStr EmptyString \/ v = PyNone \/ isinstance_str v = false ->
   exists e w1,
     BaseWorkflow.construct cls v w = (Raise e, w1) /\
     BaseWorkflow.__init__ (BaseWorkflow.__new__ cls) v w
     = (Raise e, BaseWorkflow.__new__ cls, w1) /\
     exc_class e = ValueError /\
     trace w1 = trace w) /\
  (forall tenant, v = PyStr tenant -> tenant <> EmptyString ->
   exists self w1,
     BaseWorkflow.construct cls v w = (Return self, w1) /\
     BaseWorkflow.org_id self = Some (PyStr tenant)).
Proof.
  split.
  - intros Hv.
    assert (negb (truthy v) || negb (isinstance_str v) = true) as Hbad.
    { destruct Hv as [-> | [-> | Hs]]; [reflexivity | reflexivity |].
      rewrite Hs. apply orb_true_r. }
    unfold BaseWorkflow.construct, BaseWorkflow.__init__. rewrite Hbad.
    simpl. eexists _, _. repeat split.
  - intros tenant -> Ht. apply truthy_str in Ht.
    unfold BaseWorkflow.construct, BaseWorkflow.__init__. rewrite Ht.
    simpl. eexists _, _. split; reflexivity.
Qed.

(** C7.  The tenant fields are unset on the new instance, set by the
    constructor to the tenant id and to the logger named
    [<class>[<org_id>]], and no sequence of calls of [rfr_level_4_alert]
    and [log_partial_success], on any arguments, changes them. *)
Theorem tenant_fields_never_reassigned
    (cls : string) (v : PyVal) (w0 w1 : World) (self : BaseWorkflow.Instance) :
  BaseWorkflow.construct cls v w0 = (Return self, w1) ->
  BaseWorkflow.org_id (BaseWorkflow.__new__ cls) = None /\
  BaseWorkflow.logger (BaseWorkflow.__new__ cls) = None /\
  BaseWorkflow.org_id self = Some v /\
  BaseWorkflow.logger self = Some (getLogger (cls +:+ "[" +:+ format v +:+ "]")) /\
  forall (ops : list CoreOp) (w : World),
    BaseWorkflow.org_id (run_ops ops self w).1 = Some v /\
    BaseWorkflow.logger (run_ops ops self w).1
    = Some (getLogger (cls +:+ "[" +:+ format v +:+ "]")).
Proof.
  intros Hc. destruct (construct_returns _ _ _ _ _ Hc) as (tenant & -> & _ & ->).
  repeat split; intros; rewrite run_ops_self; reflexivity.
Qed.
End workflow_claims.

(** ** Settings and the tenant context *)

Section config_claims.
Context `{config_manager.SettingsSource}.

(** A call that returns leaves its result in the cache. *)
Lemma get_settings_stores (cache cache1 : option config_manager.SettingsObj)
    (a : config_manager.SettingsObj) (w w1 : World) :
  config_manager.get_settings cache w = (Return a, cache1, w1) ->
  cache1 = Some a.
Proof.
  unfold config_manager.get_settings, config_manager.lru_cache.
  destruct cache as [c|].
  - now intros [= <- <- _].
  - destruct (config_manager.Settings_new w) as [[b|e] w2]; now intros [= <- <- _].
Qed.

(** With the cache filled, every call of a run returns what it holds. *)
Lemma run_cached (steps : list config_manager.Step)
    (a : config_manager.SettingsObj) (w : World) (r : Outcome config_manager.SettingsObj) :
  r ∈ config_manager.run steps (Some a) w -> r = Return a.
Proof.
  revert w. induction steps as [|[|w'] steps IH]; intros w; simpl.
  - intros Hin. now apply elem_of_nil in Hin.
  - intros [-> | Hin]%elem_of_cons; [reflexivity | now apply (IH w)].
  - apply IH.
Qed.

(** C8.  Once a call of [get_settings] has returned an object, every
    later call of the process, whatever happened to the environment and
    the rest of the interpreter state in between, returns that same
    object (the same identity and the same field values), and none of
    them raises. *)
Theorem get_settings_returns_the_cached_object
    (cache cache1 : option config_manager.SettingsObj)
    (a : config_manager.SettingsObj) (w w1 : World)
    (steps : list config_manager.Step) (w2 : World) :
  config_manager.get_settings cache w = (Return a, cache1, w1) ->
  Forall (fun r => r = Return a) (config_manager.run steps cache1 w2).
Proof.
  intros Hfirst. apply get_settings_stores in Hfirst. subst cache1.
  apply Forall_forall. intros r. apply run_cached.
Qed.
End config_claims.

(** C10.  On a non-empty string, [get_org_context] returns the mapping with
    exactly the three keys [org_id], [storage_prefix] and [log_prefix],
    holding the input, ["orgs/<org_id>/"] and ["ALS[<org_id>]"], whatever
    the state it is called in, which it leaves unchanged; on the empty
    string and on [None] it raises [ValueError] (the spec's
    ValidationError) and returns no mapping. *)
Theorem get_org_context_mapping (v : PyVal) (w : World) :
  (forall org, v = PyStr org -> org <> EmptyString ->
     config_manager.get_org_context v w
     = (Return {[ "org_id" := PyStr org;
                  "storage_prefix" := PyStr ("orgs/" +:+ org +:+ "/");
                  "log_prefix" := PyStr ("ALS[" +:+ org +:+ "]") ]},
        w)) /\
  (v = PyStr EmptyString \/ v = PyNone ->
     exists e w1,
       config_manager.get_org_context v w = (Raise e, w1) /\
       exc_class e = ValueError).
Proof.
  split.
  - intros org -> Horg. apply truthy_str in Horg.
    unfold config_manager.get_org_context. now rewrite Horg.
  - intros [-> | ->]; eexists _, _; split; reflexivity.
Qed.

(** ** The statements on concrete inputs *)

Import test_infrastructure.

(** The scenario of [test_rfr_level_1_retry]: [retries=2],
    [backoff_in_seconds=0.1], a method that always raises [ValueError].
    Three calls, sleeps of 0.1 and 0.2 seconds, and the third exception
    object comes out. *)
Example test_rfr_level_1_retry :
  @retry_with_backoff plain_builtins _ _ (Some 2) (Some (1 # 10)%Q) None
    failing_method 3 O boot
  = Some (Raise {| exc_class := ValueError;
                   exc_str := "Simulated Transient Failure";
                   exc_id := 2 |},
          3%nat,
          extend boot
            [Call "failing_method";
             Log (@retry_warning plain_builtins "failing_method" 2 (1 # 10) 0
                    {| exc_class := ValueError;
                       exc_str := "Simulated Transient Failure"; exc_id := 0 |});
             Sleep (1 # 10);
             Call "failing_method";
             Log (@retry_warning plain_builtins "failing_method" 2 (1 # 10) 1
                    {| exc_class := ValueError;
                       exc_str := "Simulated Transient Failure"; exc_id := 1 |});
             Sleep (2 # 10);
             Call "failing_method";
             Log (retry_error "failing_method" 2)]).
Proof. reflexivity. Qed.

(** A negative delay is refused by [time.sleep] before the first retry. *)
Example negative_delay_is_refused :
  @retry_with_backoff plain_builtins _ _ (Some 2) (Some (-1 # 10)%Q) None
    failing_method 3 O boot
  = Some (Raise {| exc_class := ValueError;
                   exc_str := "sleep length must be non-negative";
                   exc_id := 0 |},
          1%nat,
          {| trace :=
               [Call "failing_method";
                Log (@retry_warning plain_builtins "failing_method" 2 (-1 # 10) 0
                       {| exc_class := ValueError;
                          exc_str := "Simulated Transient Failure"; exc_id := 0 |})];
             next_id := 1;
             environ := ∅ |}).
Proof. reflexivity. Qed.

(** With a negative [retries] the counter never meets it: the loop is
    still running after any number of failed attempts. *)
Example negative_retries_keep_looping :
  @retry_with_backoff plain_builtins _ _ (Some (-1)) (Some 0%Q) None
    failing_method 50 O boot = None.
Proof. reflexivity. Qed.

(** The scenario of [test_base_workflow_org_isolation]. *)
Example test_base_workflow_org_isolation :
  (exists e w, BaseWorkflow.construct "MockWorkflow" (PyStr EmptyString) boot = (Raise e, w) /\
               exc_class e = ValueError) /\
  exists wf w,
    BaseWorkflow.construct "MockWorkflow" (PyStr "org_test_123") boot = (Return wf, w) /\
    BaseWorkflow.org_id wf = Some (PyStr "org_test_123") /\
    fst (execute wf w) = Return "Success for org_test_123".
Proof.
  split; eexists _, _; repeat split.
Qed.

Example alert_record :
  @BaseWorkflow.rfr_level_4_alert plain_builtins
    {| BaseWorkflow.class_name := "MockWorkflow";
       BaseWorkflow.org_id := Some (PyStr "org_42");
       BaseWorkflow.logger := Some (getLogger "MockWorkflow[org_42]") |}
    "db down" (Some [("host", PyStr "pg"); ("port", PyInt 5432)]) boot
  = (Return tt,
     {| BaseWorkflow.class_name := "MockWorkflow";
        BaseWorkflow.org_id := Some (PyStr "org_42");
        BaseWorkflow.logger := Some (getLogger "MockWorkflow[org_42]") |},
     extend boot
       [Log {| log_name := "MockWorkflow[org_42]"; log_level := CRITICAL;
               log_msg :=
                 "RFR-L4 ALERT | Org: org_42 | Message: db down | Context: {'host': 'pg', 'port': 5432}" |}]).
Proof. reflexivity. Qed.

(** A truthy value that is no string gets a context from
    [get_org_context], which only asks for truth. *)
Example get_org_context_of_an_int :
  config_manager.get_org_context (PyInt 42) boot
  = (Return {[ "org_id" := PyInt 42;
               "storage_prefix" := PyStr "orgs/42/";
               "log_prefix" := PyStr "ALS[42]" ]}, boot).
Proof. reflexivity. Qed.

(** The claims at these inputs. *)

Lemma retry_returns_first_result_witness :
  body answer O = (Return "done", 1%nat) /\
  exists t,
    @retry_with_backoff plain_builtins _ _ None None None answer 1 O boot
    = Some (Return "done", 1%nat, extend boot t) /\
    calls t = 1%nat /\ sleeps t = [] /\ logs t = [].
Proof.
  split; [reflexivity|].
  apply (@retry_returns_first_result plain_builtins string nat
           None None None answer O 1%nat "done" boot O).
  reflexivity.
Defined.

Lemma retry_propagates_non_retryable_witness :
  body interrupted 4%nat
  = (Raise {| exc_class := KeyboardInterrupt; exc_str := EmptyString; exc_id := 4 |},
     5%nat) /\
  except_matches [Exception]
    {| exc_class := KeyboardInterrupt; exc_str := EmptyString; exc_id := 4 |} = false /\
  exists t,
    @retry_with_backoff plain_builtins _ _ (Some 5) (Some 2%Q) None interrupted 1
      4%nat boot
    = Some (Raise {| exc_class := KeyboardInterrupt; exc_str := EmptyString;
                     exc_id := 4 |},
            5%nat, extend boot t) /\
    calls t = 1%nat /\ sleeps t = [] /\ logs t = [].
Proof.
  split; [reflexivity|]. split; [reflexivity|].
  apply (@retry_propagates_non_retryable plain_builtins string nat
           (Some 5) (Some 2%Q) None interrupted 4%nat 5%nat _ boot O);
    reflexivity.
Defined.






Lemma construct_validates_org_id_witness :
  (exists e w1,
     BaseWorkflow.construct "MockWorkflow" (PyInt 42) boot = (Raise e, w1) /\
     BaseWorkflow.__init__ (BaseWorkflow.__new__ "MockWorkflow") (PyInt 42) boot
     = (Raise e, BaseWorkflow.__new__ "MockWorkflow", w1) /\
     exc_class e = ValueError /\
     trace w1 = trace boot) /\
  (exists self w1,
     BaseWorkflow.construct "MockWorkflow" (PyStr "org_42") boot = (Return self, w1) /\
     BaseWorkflow.org_id self = Some (PyStr "org_42")).
Proof.
  split.
  - apply (proj1 (construct_validates_org_id "MockWorkflow" (PyInt 42) boot)).
    right. right. reflexivity.
  - apply (proj2 (construct_validates_org_id "MockWorkflow" (PyStr "org_42") boot)
             "org_42"); [reflexivity | discriminate].
Defined.

Lemma tenant_fields_never_reassigned_witness :
  BaseWorkflow.construct "MockWorkflow" (PyStr "org_42") boot
  = (Return org_42, org_42_built) /\
  BaseWorkflow.org_id (BaseWorkflow.__new__ "MockWorkflow") = None /\
  BaseWorkflow.logger (BaseWorkflow.__new__ "MockWorkflow") = None /\
  BaseWorkflow.org_id org_42 = Some (PyStr "org_42") /\
  BaseWorkflow.logger org_42
  = Some (getLogger ("MockWorkflow" +:+ "[" +:+ format (PyStr "org_42") +:+ "]")) /\
  forall (ops : list CoreOp) (w : World),
    BaseWorkflow.org_id (@run_ops plain_builtins ops org_42 w).1
    = Some (PyStr "org_42") /\
    BaseWorkflow.logger (@run_ops plain_builtins ops org_42 w).1
    = Some (getLogger ("MockWorkflow" +:+ "[" +:+ format (PyStr "org_42") +:+ "]")).
Proof.
  split; [reflexivity|].
  apply (@tenant_fields_never_reassigned plain_builtins
           "MockWorkflow" (PyStr "org_42") boot org_42_built org_42).
  reflexivity.
Defined.

Lemma get_settings_returns_the_cached_object_witness :
  @config_manager.get_settings plain_source None boot
  = (Return first_settings, Some first_settings,
     {| trace := []; next_id := 1; environ := ∅ |}) /\
  @config_manager.Settings_new plain_source bad_port
  = (Raise {| exc_class := Subclass "ValidationError" ValueError;
              exc_str := "POSTGRES_PORT: Input should be a valid integer";
              exc_id := 7 |},
     {| trace := []; next_id := 8; environ := {[ "POSTGRES_PORT" := "abc" ]} |}) /\
  Forall (fun r => r = Return first_settings)
    (@config_manager.run plain_source
       [config_manager.GetSettings; config_manager.Other bad_port;
        config_manager.GetSettings]
       (Some first_settings) boot).
Proof.
  split; [reflexivity|]. split; [reflexivity|].
  apply (@get_settings_returns_the_cached_object plain_source
           None (Some first_settings) first_settings boot
           {| trace := []; next_id := 1; environ := ∅ |}).
  reflexivity.
Defined.

Lemma get_org_context_mapping_witness :
  config_manager.get_org_context (PyStr "org_42") boot
  = (Return {[ "org_id" := PyStr "org_42";
               "storage_prefix" := PyStr ("orgs/" +:+ "org_42" +:+ "/");
               "log_prefix" := PyStr ("ALS[" +:+ "org_42" +:+ "]") ]},
     boot) /\
  exists e w1,
    config_manager.get_org_context PyNone boot = (Raise e, w1) /\
    exc_class e = ValueError.
Proof.
  split.
  - apply (proj1 (get_org_context_mapping (PyStr "org_42") boot) "org_42");
      [reflexivity | discriminate].
  - apply (proj2 (get_org_context_mapping PyNone boot)). right. reflexivity.
Defined.

(** ** More on the retry loop: recovery, bounds, and the edges of its
    configuration *)




Section retry_more.
Context `{Builtins} {R St : Type}.
Variable retries : Z.
Variable backoff_in_seconds : Q.
Variable exceptions : list ExcClass.
Variable func : Func R St.



End retry_more.


Section retry_extras.
Context `{Builtins} {R St : Type}.






End retry_extras.

(** The retry extras at concrete inputs. *)









(** ** More on the workflow: what its helpers log, and for whom *)

Lemma length_append (a b : string) :
  String.length (a +:+ b) = (String.length a + String.length b)%nat.
Proof.
  induction a as [|ch a IH]; [reflexivity|].
  change (S (String.length (a +:+ b)) = S (String.length a + String.length b)).
  now rewrite IH.
Qed.

Lemma append_inv_head (a b c : string) : a +:+ b = a +:+ c -> b = c.
Proof.
  induction a as [|ch a IH]; [easy|].
  intros Heq. apply IH.
  change (String ch (a +:+ b) = String ch (a +:+ c)) in Heq. congruence.
Qed.

Lemma append_inv_tail (a b c : string) : a +:+ c = b +:+ c -> a = b.
Proof.
  revert b. induction a as [|ch a IH]; intros [|ch' b] Heq.
  - reflexivity.
  - apply (f_equal String.length) in Heq.
    rewrite !length_append in Heq. simpl in Heq. lia.
  - apply (f_equal String.length) in Heq.
    rewrite !length_append in Heq. simpl in Heq. lia.
  - change (String ch (a +:+ c) = String ch' (b +:+ c)) in Heq.
    injection Heq as -> Heq. f_equal. now apply IH.
Qed.

Section workflow_extras.
Context `{Builtins}.



(** X9.  Two workflows of one class log under the same logger only when
    they were constructed for the same tenant id. *)
Theorem logger_names_separate_tenants
    (cls a b : string) (wa wa' wb wb' : World) (sa sb : BaseWorkflow.Instance) :
  BaseWorkflow.construct cls (PyStr a) wa = (Return sa, wa') ->
  BaseWorkflow.construct cls (PyStr b) wb = (Return sb, wb') ->
  (BaseWorkflow.logger sa = BaseWorkflow.logger sb <-> a = b).
Proof.
  intros Ha Hb.
  destruct (construct_returns _ _ _ _ _ Ha) as (ta & [= <-] & _ & ->).
  destruct (construct_returns _ _ _ _ _ Hb) as (tb & [= <-] & _ & ->).
  simpl. split; [|now intros ->].
  intros [= Heq]. apply append_inv_head in Heq.
  change ("[" +:+ a +:+ "]" = "[" +:+ b +:+ "]") in Heq.
  apply (append_inv_head "[") in Heq. now apply append_inv_tail in Heq.
Qed.

(** X10.  The helpers need an initialised instance.  On an instance without
    its [logger] attribute both raise [AttributeError] for [logger], and on
    one with a logger but without [org_id] the alert raises [AttributeError]
    for [org_id]; in each case nothing is logged. *)
Theorem helpers_raise_on_an_uninitialised_instance
    (self : BaseWorkflow.Instance) (message step_name details : string)
    (context : option Dict) (w : World) :
  let missing name :=
    (Raise (A := unit)
       {| exc_class := AttributeError;
          exc_str := "'" +:+ BaseWorkflow.class_name self
                       +:+ "' object has no attribute '" +:+ name +:+ "'";
          exc_id := next_id w |},
     self,
     {| trace := trace w; next_id := S (next_id w); environ := environ w |}) in
  (BaseWorkflow.logger self = None ->
   BaseWorkflow.rfr_level_4_alert self message context w = missing "logger" /\
   BaseWorkflow.log_partial_success self step_name details w = missing "logger") /\
  (BaseWorkflow.logger self <> None -> BaseWorkflow.org_id self = None ->
   BaseWorkflow.rfr_level_4_alert self message context w = missing "org_id").
Proof.
  intros missing. unfold BaseWorkflow.rfr_level_4_alert,
    BaseWorkflow.log_partial_success, BaseWorkflow.getattr, missing.
  split.
  - intros ->. split; reflexivity.
  - intros Hl ->. destruct (BaseWorkflow.logger self); [reflexivity | congruence].
Qed.
End workflow_extras.

(** ** More on the tenant context and the settings *)

Lemma prefix_cons (c c' : ascii) (a b : string) :
  String.prefix (String c a) (String c' b) = true -> c = c' /\ String.prefix a b = true.
Proof.
  cbn [String.prefix]. now destruct (ascii_dec c c').
Qed.

Lemma prefix_slash (a b : string) :
  has_slash a = false -> has_slash b = false ->
  String.prefix (a +:+ "/") (b +:+ "/") = true -> a = b.
Proof.
  revert b. induction a as [|c a IH]; intros [|c' b] Ha Hb Hp.
  - reflexivity.
  - apply (prefix_cons "/" c' EmptyString (b +:+ "/")) in Hp as [<- _].
    discriminate.
  - apply (prefix_cons c "/" (a +:+ "/") EmptyString) in Hp as [-> _].
    discriminate.
  - apply (prefix_cons c c' (a +:+ "/") (b +:+ "/")) in Hp as [-> Hp].
    cbn [has_slash] in Ha, Hb.
    apply orb_false_elim in Ha as [_ Ha]. apply orb_false_elim in Hb as [_ Hb].
    f_equal. now apply IH.
Qed.

(** What [get_org_context] returns on a value it accepts. *)
Lemma get_org_context_returns (v : PyVal) (w : World) :
  truthy v = true ->
  config_manager.get_org_context v w
  = (Return {[ "org_id" := v;
               "storage_prefix" := PyStr ("orgs/" +:+ format v +:+ "/");
               "log_prefix" := PyStr ("ALS[" +:+ format v +:+ "]") ]}, w).
Proof.
  intros Ht. unfold config_manager.get_org_context. now rewrite Ht.
Qed.

Lemma org_context_lookups (v : PyVal) (sp lp : string) :
  let m : gmap string PyVal :=
    {[ "org_id" := v; "storage_prefix" := PyStr sp; "log_prefix" := PyStr lp ]} in
  m !! "org_id" = Some v /\
  m !! "storage_prefix" = Some (PyStr sp) /\
  m !! "log_prefix" = Some (PyStr lp) /\
  dom m = {[ "org_id"; "storage_prefix"; "log_prefix" ]}.
Proof.
  intros m. unfold m. split; [|split; [|split]].
  - now rewrite lookup_insert_eq.
  - rewrite lookup_insert_ne by done. now rewrite lookup_insert_eq.
  - rewrite !lookup_insert_ne by done. now rewrite lookup_singleton_eq.
  - rewrite !dom_insert_L, dom_singleton_L. set_solver.
Qed.

(** X11.  [get_org_context] asks for truth only, not for a string.  Every
    truthy value gets the mapping with exactly the keys [org_id],
    [storage_prefix] and [log_prefix], holding the value itself and the two
    prefixes built on [str(value)], and the state is left as it was; every
    falsy value ([None], [False], [0], the empty string, an empty
    container) is refused with [ValueError] and nothing is logged. *)
Theorem get_org_context_accepts_what_is_truthy (v : PyVal) (w : World) :
  (truthy v = true ->
   exists m,
     config_manager.get_org_context v w = (Return m, w) /\
     m !! "org_id" = Some v /\
     m !! "storage_prefix" = Some (PyStr ("orgs/" +:+ format v +:+ "/")) /\
     m !! "log_prefix" = Some (PyStr ("ALS[" +:+ format v +:+ "]")) /\
     dom m = {[ "org_id"; "storage_prefix"; "log_prefix" ]}) /\
  (truthy v = false ->
   exists e w1,
     config_manager.get_org_context v w = (Raise e, w1) /\
     exc_class e = ValueError /\
     exc_str e = "org_id is required for isolation enforcement." /\
     trace w1 = trace w).
Proof.
  split; intros Ht.
  - eexists. split; [now apply get_org_context_returns|].
    apply org_context_lookups.
  - unfold config_manager.get_org_context. rewrite Ht. simpl.
    eexists _, _. repeat split.
Qed.

(** X12.  What the workflow constructor accepts, [get_org_context] accepts
    too, and the two agree on the tenant: the mapping's [org_id] is the
    workflow's [org_id], and its [log_prefix] [ALS[<org_id>]] and the
    workflow's logger [<class>[<org_id>]] are built on the same id. *)
Theorem constructor_and_org_context_agree
    (cls : string) (v : PyVal) (w0 w1 w : World) (self : BaseWorkflow.Instance) :
  BaseWorkflow.construct cls v w0 = (Return self, w1) ->
  exists m tenant,
    config_manager.get_org_context v w = (Return m, w) /\
    m !! "org_id" = BaseWorkflow.org_id self /\
    m !! "log_prefix" = Some (PyStr ("ALS[" +:+ tenant +:+ "]")) /\
    BaseWorkflow.logger self = Some (getLogger (cls +:+ "[" +:+ tenant +:+ "]")).
Proof.
  intros Hc.
  destruct (construct_returns cls v w0 w1 self Hc)
    as (tenant & -> & Ht & ->).
  eexists _, tenant. split.
  - apply get_org_context_returns. now apply truthy_str.
  - simpl format.
    destruct (org_context_lookups (PyStr tenant) ("orgs/" +:+ tenant +:+ "/")
                ("ALS[" +:+ tenant +:+ "]")) as (H1 & _ & H3 & _).
    now rewrite H1, H3.
Qed.

(** X13.  The storage prefixes keep tenants apart.  Two tenant ids with the
    same [storage_prefix] are the same id; and when neither id holds a
    ["/"], the prefix of one tenant is a prefix of the other's (so that
    everything stored under one lies under the other) only when the two
    ids are the same. *)
Theorem storage_prefixes_separate_tenants
    (a b : string) (wa wb : World) (ma mb : gmap string PyVal) (pa pb : string) :
  config_manager.get_org_context (PyStr a) wa = (Return ma, wa) ->
  config_manager.get_org_context (PyStr b) wb = (Return mb, wb) ->
  ma !! "storage_prefix" = Some (PyStr pa) ->
  mb !! "storage_prefix" = Some (PyStr pb) ->
  (pa = pb -> a = b) /\
  (has_slash a = false -> has_slash b = false ->
   String.prefix pa pb = true -> a = b).
Proof.
  intros Ha Hb Hpa Hpb.
  assert (truthy (PyStr a) = true) as Hta.
  { unfold config_manager.get_org_context in Ha.
    destruct (truthy (PyStr a)); [reflexivity | discriminate]. }
  assert (truthy (PyStr b) = true) as Htb.
  { unfold config_manager.get_org_context in Hb.
    destruct (truthy (PyStr b)); [reflexivity | discriminate]. }
  rewrite (get_org_context_returns _ wa Hta) in Ha. injection Ha as <-.
  rewrite (get_org_context_returns _ wb Htb) in Hb. injection Hb as <-.
  simpl format in Hpa, Hpb.
  destruct (org_context_lookups (PyStr a) ("orgs/" +:+ a +:+ "/") ("ALS[" +:+ a +:+ "]"))
    as (_ & Ha2 & _).
  destruct (org_context_lookups (PyStr b) ("orgs/" +:+ b +:+ "/") ("ALS[" +:+ b +:+ "]"))
    as (_ & Hb2 & _).
  rewrite Ha2 in Hpa. rewrite Hb2 in Hpb.
  injection Hpa as <-. injection Hpb as <-. split.
  - intros Heq. apply (append_inv_head "orgs/") in Heq.
    now apply append_inv_tail in Heq.
  - intros Hsa Hsb Hp. apply prefix_slash; [exact Hsa | exact Hsb |].
    exact Hp.
Qed.

(** X16.  Docker mode decides whether the [*_HOST] settings count.  For
    each of the four derived addresses, setting the host field changes the
    address exactly when [DOCKER_MODE] is off and the host is a different
    one: in docker mode the addresses are built on the service names
    [postgres], [minio], [mlflow] and [redis] whatever the host fields
    hold. *)
Theorem docker_mode_decides_host
    (s : config_manager.Settings) (postgres minio mlflow redis : string) :
  let s' := with_hosts postgres minio mlflow redis s in
  (config_manager.DATABASE_URL s' = config_manager.DATABASE_URL s
   <-> config_manager.DOCKER_MODE s = true \/ postgres = config_manager.POSTGRES_HOST s) /\
  (config_manager.MINIO_ENDPOINT s' = config_manager.MINIO_ENDPOINT s
   <-> config_manager.DOCKER_MODE s = true \/ minio = config_manager.MINIO_HOST s) /\
  (config_manager.MLFLOW_TRACKING_URI s' = config_manager.MLFLOW_TRACKING_URI s
   <-> config_manager.DOCKER_MODE s = true \/ mlflow = config_manager.MLFLOW_HOST s) /\
  (config_manager.REDIS_URL s' = config_manager.REDIS_URL s
   <-> config_manager.DOCKER_MODE s = true \/ redis = config_manager.REDIS_HOST s).
Proof.
  intros s'. unfold s', config_manager.DATABASE_URL, config_manager.MINIO_ENDPOINT,
    config_manager.MLFLOW_TRACKING_URI, config_manager.REDIS_URL.
  cbn [with_hosts config_manager.DOCKER_MODE config_manager.POSTGRES_HOST
       config_manager.POSTGRES_USER config_manager.POSTGRES_PASSWORD
       config_manager.POSTGRES_PORT config_manager.POSTGRES_DB
       config_manager.MINIO_HOST config_manager.MINIO_PORT
       config_manager.MLFLOW_HOST config_manager.MLFLOW_PORT
       config_manager.REDIS_HOST config_manager.REDIS_PORT].
  destruct (config_manager.DOCKER_MODE s).
  - repeat split; auto.
  - split; [|split; [|split]];
      (split; [intros Heq; right | intros [Hd | ->]; [discriminate | reflexivity]]).
    + apply (append_inv_head "postgresql://") in Heq.
      do 4 apply append_inv_head in Heq. now apply append_inv_tail in Heq.
    + now apply append_inv_tail in Heq.
    + apply (append_inv_head "http://") in Heq. now apply append_inv_tail in Heq.
    + apply (append_inv_head "redis://") in Heq. now apply append_inv_tail in Heq.
Qed.

Section config_extras.
Context `{config_manager.SettingsSource}.

(** With the cache empty, a run's calls that return all return one
    object. *)
Lemma run_agree (steps : list config_manager.Step)
    (cache : option config_manager.SettingsObj) (w : World)
    (a b : config_manager.SettingsObj) :
  Return a ∈ config_manager.run steps cache w ->
  Return b ∈ config_manager.run steps cache w ->
  a = b.
Proof.
  revert cache w. induction steps as [|[|w'] steps IH]; intros cache w; simpl.
  - intros Hin. now apply elem_of_nil in Hin.
  - destruct (config_manager.get_settings cache w) as [[res cache1] w1] eqn:Hg.
    destruct res as [c|e].
    + apply get_settings_stores in Hg. subst cache1.
      intros [Ha | Ha]%elem_of_cons [Hb | Hb]%elem_of_cons;
        try apply run_cached in Ha; try apply run_cached in Hb; congruence.
    + intros [Ha | Ha]%elem_of_cons [Hb | Hb]%elem_of_cons; try discriminate.
      now apply (IH cache1 w1).
  - apply IH.
Qed.

(** X15.  Along any run of the process, from any state of the cache and
    whatever else happens in between, any two calls of [get_settings] that
    return, return the same object; this holds too when earlier calls
    raised. *)
Theorem get_settings_calls_agree (steps : list config_manager.Step)
    (cache : option config_manager.SettingsObj) (w : World) (i j : nat)
    (a b : config_manager.SettingsObj) :
  config_manager.run steps cache w !! i = Some (Return a) ->
  config_manager.run steps cache w !! j = Some (Return b) ->
  a = b.
Proof.
  intros Hi Hj. apply (run_agree steps cache w).
  - apply list_elem_of_lookup. now exists i.
  - apply list_elem_of_lookup. now exists j.
Qed.

(** X14.  A failed load is not cached.  When [Settings()] fails validation
    the call raises the validation error and leaves the cache empty, so
    the next call loads again: in a state whose environment the loader
    accepts it returns a new object, holding the values loaded then, and
    caches it. *)
Theorem get_settings_failure_is_not_cached
    (w w1 : World) (e : PyExc) (cache1 : option config_manager.SettingsObj) :
  config_manager.get_settings None w = (Raise e, cache1, w1) ->
  cache1 = None /\
  isinstance e ValueError = true /\
  trace w1 = trace w /\
  forall (w2 : World) (v : config_manager.Settings),
    config_manager.load (environ w2) config_manager.defaults = inr v ->
    config_manager.get_settings cache1 w2
    = (Return {| config_manager.settings_id := next_id w2;
                 config_manager.fields := v |},
       Some {| config_manager.settings_id := next_id w2;
               config_manager.fields := v |},
       {| trace := trace w2; next_id := S (next_id w2); environ := environ w2 |}).
Proof.
  unfold config_manager.get_settings, config_manager.lru_cache,
    config_manager.Settings_new.
  destruct (config_manager.load (environ w) config_manager.defaults) as [msg|v0];
    simpl; [|discriminate].
  intros [= <- <- <-]. repeat split.
  intros w2 v Hv. now rewrite Hv.
Qed.
End config_extras.

(** ** The health checks of the dashboard *)

Section dashboard_extras.
Context `{dashboard_app.Drivers}.

(** A [try] whose handler only returns lets no instance of [Exception]
    out. *)
Lemma try_except_Exception_safe {A : Type} (body : dashboard_app.Eff A)
    (f : PyExc -> A) (w w1 : World) (e : PyExc) :
  dashboard_app.try_except_Exception body (fun e => dashboard_app.ret (f e)) w
  = (Raise e, w1) ->
  isinstance e Exception = false.
Proof.
  unfold dashboard_app.try_except_Exception, dashboard_app.ret.
  destruct (body w) as [[a|e0] w0]; [discriminate|].
  destruct (isinstance e0 Exception) eqn:He; [discriminate|].
  now intros [= <- _].
Qed.

(** X17.  No health check lets a failure of the infrastructure through:
    whatever the client libraries do, an exception that comes out of one of
    the six checks is no instance of [Exception] (it is a
    [KeyboardInterrupt], a [SystemExit] or the like). *)
Theorem health_checks_swallow_Exception
    (settings : config_manager.Settings) (w w1 : World) (e : PyExc) :
  dashboard_app.check_postgres settings w = (Raise e, w1) \/
  dashboard_app.check_minio settings w = (Raise e, w1) \/
  dashboard_app.check_redis settings w = (Raise e, w1) \/
  dashboard_app.check_mlflow settings w = (Raise e, w1) \/
  dashboard_app.check_loki settings w = (Raise e, w1) \/
  dashboard_app.check_prometheus settings w = (Raise e, w1) ->
  isinstance e Exception = false.
Proof.
  intros [Hc | [Hc | [Hc | [Hc | [Hc | Hc]]]]];
    exact (try_except_Exception_safe _ _ _ _ _ Hc).
Qed.

(** The body of an HTTP check: one GET, and the verdict on its status. *)
Lemma http_check_online (url : string) (w w1 : World) (msg : string) :
  dashboard_app.try_except_Exception
    (dashboard_app.bind (dashboard_app.requests_get url 5)
       (fun response =>
          if dashboard_app.status_code response =? 200
          then dashboard_app.ret (true, "Connected")
          else dashboard_app.ret
                 (false, "Status: " +:+ str_int (dashboard_app.status_code response))))
    (fun e => dashboard_app.ret (false, exc_str e)) w
  = (Return (true, msg), w1)
  <-> exists response,
        dashboard_app.requests_get url 5 w = (Return response, w1) /\
        dashboard_app.status_code response = 200 /\
        msg = "Connected".
Proof.
  unfold dashboard_app.try_except_Exception, dashboard_app.bind, dashboard_app.ret.
  destruct (dashboard_app.requests_get url 5 w) as [[response|e] w0].
  - destruct (Z.eqb_spec (dashboard_app.status_code response) 200) as [Hs|Hs]; split.
    + intros [= <- <-]. now exists response.
    + intros (r & [= <- <-] & _ & ->). reflexivity.
    + discriminate.
    + intros (r & [= <- <-] & Hr & _). contradiction.
  - split.
    + destruct (isinstance e Exception); discriminate.
    + intros (r & Hr & _). discriminate.
Qed.

(** X18.  An HTTP check says Online exactly when its one GET (timeout 5)
    returned a response of status 200: [check_mlflow] on
    [MLFLOW_TRACKING_URI], [check_loki] on [http://loki:3100/ready] in
    docker mode and [http://localhost:3100/ready] otherwise,
    [check_prometheus] on [http://prometheus:9090/-/ready] or
    [http://localhost:9090/-/ready]. *)
Theorem http_checks_online_iff_status_200
    (settings : config_manager.Settings) (w w1 : World) (msg : string) :
  let host name :=
    if config_manager.DOCKER_MODE settings then name else "localhost" in
  let ok url :=
    exists response,
      dashboard_app.requests_get url 5 w = (Return response, w1) /\
      dashboard_app.status_code response = 200 /\
      msg = "Connected" in
  (dashboard_app.check_mlflow settings w = (Return (true, msg), w1)
   <-> ok (config_manager.MLFLOW_TRACKING_URI settings)) /\
  (dashboard_app.check_loki settings w = (Return (true, msg), w1)
   <-> ok ("http://" +:+ host "loki" +:+ ":3100/ready")) /\
  (dashboard_app.check_prometheus settings w = (Return (true, msg), w1)
   <-> ok ("http://" +:+ host "prometheus" +:+ ":9090/-/ready")).
Proof.
  intros host ok. split; [|split]; apply http_check_online.
Qed.

(** X19.  A driver check says Online exactly when both of its calls
    returned: [check_postgres] when [psycopg2.connect] on [DATABASE_URL]
    and then [conn.close()] did, [check_minio] when [boto3.client] on
    [http://<MINIO_ENDPOINT>] with the root credentials and then
    [list_buckets()] did, [check_redis] when [redis.from_url] on
    [REDIS_URL] and then [ping()] did, whatever [ping] answered. *)
Theorem driver_checks_online_iff_calls_return
    (settings : config_manager.Settings) (w w2 : World) (msg : string) :
  (dashboard_app.check_postgres settings w = (Return (true, msg), w2)
   <-> exists conn w1,
         dashboard_app.psycopg2_connect (config_manager.DATABASE_URL settings) w
         = (Return conn, w1) /\
         dashboard_app.close conn w1 = (Return tt, w2) /\
         msg = "Connected") /\
  (dashboard_app.check_minio settings w = (Return (true, msg), w2)
   <-> exists s3 w1,
         dashboard_app.boto3_client "s3"
           ("http://" +:+ config_manager.MINIO_ENDPOINT settings)
           (config_manager.MINIO_ROOT_USER settings)
           (config_manager.MINIO_ROOT_PASSWORD settings) w
         = (Return s3, w1) /\
         dashboard_app.list_buckets s3 w1 = (Return tt, w2) /\
         msg = "Connected") /\
  (dashboard_app.check_redis settings w = (Return (true, msg), w2)
   <-> exists r w1 answer,
         dashboard_app.redis_from_url (config_manager.REDIS_URL settings) w
         = (Return r, w1) /\
         dashboard_app.ping r w1 = (Return answer, w2) /\
         msg = "Connected").
Proof.
  unfold dashboard_app.check_postgres, dashboard_app.check_minio,
    dashboard_app.check_redis, dashboard_app.try_except_Exception,
    dashboard_app.bind, dashboard_app.ret.
  split; [|split].
  - destruct (dashboard_app.psycopg2_connect _ w) as [[conn|e] w1].
    + destruct (dashboard_app.close conn w1) as [[[]|e] w3] eqn:Hcl; split.
      * intros [= <- <-]. now exists conn, w1.
      * intros (c & w' & [= <- <-] & Hc & ->). rewrite Hcl in Hc. now inversion Hc.
      * destruct (isinstance e Exception); discriminate.
      * intros (c & w' & [= <- <-] & Hc & _). rewrite Hcl in Hc. discriminate.
    + split.
      * destruct (isinstance e Exception); discriminate.
      * intros (c & w' & Hc & _). discriminate.
  - destruct (dashboard_app.boto3_client _ _ _ _ w) as [[s3|e] w1].
    + destruct (dashboard_app.list_buckets s3 w1) as [[[]|e] w3] eqn:Hcl; split.
      * intros [= <- <-]. now exists s3, w1.
      * intros (c & w' & [= <- <-] & Hc & ->). rewrite Hcl in Hc. now inversion Hc.
      * destruct (isinstance e Exception); discriminate.
      * intros (c & w' & [= <- <-] & Hc & _). rewrite Hcl in Hc. discriminate.
    + split.
      * destruct (isinstance e Exception); discriminate.
      * intros (c & w' & Hc & _). discriminate.
  - destruct (dashboard_app.redis_from_url _ w) as [[r|e] w1].
    + destruct (dashboard_app.ping r w1) as [[b|e] w3] eqn:Hcl; split.
      * intros [= <- <-]. now exists r, w1, b.
      * intros (c & w' & b' & [= <- <-] & Hc & ->). rewrite Hcl in Hc.
        now inversion Hc.
      * destruct (isinstance e Exception); discriminate.
      * intros (c & w' & b' & [= <- <-] & Hc & _). rewrite Hcl in Hc. discriminate.
    + split.
      * destruct (isinstance e Exception); discriminate.
      * intros (c & w' & b' & Hc & _). discriminate.
Qed.
(** A metric shows Online without a delta, or Offline with the message
    of the check as its delta. *)
Lemma metric_shape (name : string) (result : bool * string) :
  let m := dashboard_app.metric name result in
  dashboard_app.label m = name /\
  dashboard_app.delta_color m = "inverse" /\
  (dashboard_app.value m = "Online" /\ dashboard_app.delta m = None /\
   result.1 = true
   \/ dashboard_app.value m = "Offline" /\
      dashboard_app.delta m = Some result.2 /\ result.1 = false).
Proof.
  destruct result as [[|] msg]; simpl; auto 10.
Qed.

(** X20.  The health tab survives a broken infrastructure.  Whatever the
    client libraries do, the six columns either end on an exception that
    is no instance of [Exception], or show exactly six metrics, labelled
    and ordered as in the script, each one Online without a delta or
    Offline with a delta. *)
Theorem infrastructure_pulse_shows_six_metrics
    (settings : config_manager.Settings) (w : World) :
  match dashboard_app.infrastructure_pulse settings w with
  | (Raise e, _) => isinstance e Exception = false
  | (Return ms, _) =>
      map dashboard_app.label ms
      = ["PostgreSQL (pgvector)"; "MinIO (S3)"; "Redis (Celery)";
         "MLflow Registry"; "Loki (Logs)"; "Prometheus (Metrics)"] /\
      Forall (fun m =>
                dashboard_app.value m = "Online" /\ dashboard_app.delta m = None
                \/ dashboard_app.value m = "Offline" /\
                   is_Some (dashboard_app.delta m)) ms
  end.
Proof.
  unfold dashboard_app.infrastructure_pulse.
  unfold dashboard_app.bind at 1.
  destruct (dashboard_app.check_postgres settings w) as [[r1|e] w1] eqn:H1;
    [| exact (try_except_Exception_safe _ _ _ _ _ H1)].
  unfold dashboard_app.bind at 1.
  destruct (dashboard_app.check_minio settings w1) as [[r2|e] w2] eqn:H2;
    [| exact (try_except_Exception_safe _ _ _ _ _ H2)].
  unfold dashboard_app.bind at 1.
  destruct (dashboard_app.check_redis settings w2) as [[r3|e] w3] eqn:H3;
    [| exact (try_except_Exception_safe _ _ _ _ _ H3)].
  unfold dashboard_app.bind at 1.
  destruct (dashboard_app.check_mlflow settings w3) as [[r4|e] w4] eqn:H4;
    [| exact (try_except_Exception_safe _ _ _ _ _ H4)].
  unfold dashboard_app.bind at 1.
  destruct (dashboard_app.check_loki settings w4) as [[r5|e] w5] eqn:H5;
    [| exact (try_except_Exception_safe _ _ _ _ _ H5)].
  unfold dashboard_app.bind at 1.
  destruct (dashboard_app.check_prometheus settings w5) as [[r6|e] w6] eqn:H6;
    [| exact (try_except_Exception_safe _ _ _ _ _ H6)].
  unfold dashboard_app.ret.
  destruct r1 as [b1 m1], r2 as [b2 m2], r3 as [b3 m3], r4 as [b4 m4],
    r5 as [b5 m5], r6 as [b6 m6].
  split; [reflexivity|].
  repeat (apply List.Forall_cons;
          [match goal with
           | |- context [dashboard_app.metric ?n ?r] =>
               destruct (metric_shape n r)
                 as (_ & _ & [(Hv & Hd & _) | (Hv & Hd & _)]);
                 [left; now split | right; split; [exact Hv | now rewrite Hd]]
           end |]).
  apply List.Forall_nil.
Qed.
End dashboard_extras.

(** The further statements at concrete inputs. *)

Example health_checks_on_the_sample_infrastructure :
  fst (@dashboard_app.check_postgres sample_drivers config_manager.defaults boot)
  = Return (true, "Connected") /\
  fst (@dashboard_app.check_minio sample_drivers config_manager.defaults boot)
  = Return (false, "Could not connect to the endpoint URL: http://localhost:9000") /\
  fst (@dashboard_app.check_redis sample_drivers config_manager.defaults boot)
  = Return (true, "Connected") /\
  fst (@dashboard_app.check_mlflow sample_drivers config_manager.defaults boot)
  = Return (true, "Connected") /\
  fst (@dashboard_app.check_loki sample_drivers config_manager.defaults boot)
  = Return (false, "Status: 503") /\
  fst (@dashboard_app.check_prometheus sample_drivers config_manager.defaults boot)
  = Raise {| exc_class := KeyboardInterrupt; exc_str := EmptyString; exc_id := 0 |}.
Proof. repeat split. Qed.

(** A tenant id with a ["/"] in it puts its storage under another
    tenant's prefix. *)
Example slash_in_a_tenant_id :
  String.prefix "orgs/acme/" "orgs/acme/eu/" = true /\
  fst (config_manager.get_org_context (PyStr "acme/eu") boot)
  = Return {[ "org_id" := PyStr "acme/eu";
              "storage_prefix" := PyStr "orgs/acme/eu/";
              "log_prefix" := PyStr "ALS[acme/eu]" ]}.
Proof. split; reflexivity. Qed.



Lemma logger_names_separate_tenants_witness :
  BaseWorkflow.construct "MockWorkflow" (PyStr "org_42") boot
  = (Return org_42, org_42_built) /\
  BaseWorkflow.construct "MockWorkflow" (PyStr "org_7") boot
  = (Return org_7, org_7_built) /\
  (BaseWorkflow.logger org_42 = BaseWorkflow.logger org_7 <-> "org_42" = "org_7").
Proof.
  split; [reflexivity|]. split; [reflexivity|].
  apply (logger_names_separate_tenants "MockWorkflow" "org_42" "org_7"
           boot org_42_built boot org_7_built org_42 org_7); reflexivity.
Defined.

Lemma helpers_raise_on_an_uninitialised_instance_witness :
  BaseWorkflow.logger (BaseWorkflow.__new__ "MockWorkflow") = None /\
  @BaseWorkflow.rfr_level_4_alert plain_builtins (BaseWorkflow.__new__ "MockWorkflow")
    "db down" None boot
  = (Raise {| exc_class := AttributeError;
              exc_str := "'MockWorkflow' object has no attribute 'logger'";
              exc_id := 0 |},
     BaseWorkflow.__new__ "MockWorkflow",
     {| trace := []; next_id := 1; environ := ∅ |}) /\
  BaseWorkflow.log_partial_success (BaseWorkflow.__new__ "MockWorkflow")
    "ingest" "120 rows" boot
  = (Raise {| exc_class := AttributeError;
              exc_str := "'MockWorkflow' object has no attribute 'logger'";
              exc_id := 0 |},
     BaseWorkflow.__new__ "MockWorkflow",
     {| trace := []; next_id := 1; environ := ∅ |}).
Proof.
  split; [reflexivity|].
  apply (proj1 (@helpers_raise_on_an_uninitialised_instance plain_builtins
                  (BaseWorkflow.__new__ "MockWorkflow") "db down" "ingest" "120 rows"
                  None boot)).
  reflexivity.
Defined.

Lemma get_org_context_accepts_what_is_truthy_witness :
  (exists m,
     config_manager.get_org_context (PyInt 42) boot = (Return m, boot) /\
     m !! "org_id" = Some (PyInt 42) /\
     m !! "storage_prefix" = Some (PyStr ("orgs/" +:+ format (PyInt 42) +:+ "/")) /\
     m !! "log_prefix" = Some (PyStr ("ALS[" +:+ format (PyInt 42) +:+ "]")) /\
     dom m = {[ "org_id"; "storage_prefix"; "log_prefix" ]}) /\
  (exists e w1,
     config_manager.get_org_context (PyInt 0) boot = (Raise e, w1) /\
     exc_class e = ValueError /\
     exc_str e = "org_id is required for isolation enforcement." /\
     trace w1 = trace boot).
Proof.
  split.
  - apply (proj1 (get_org_context_accepts_what_is_truthy (PyInt 42) boot)).
    reflexivity.
  - apply (proj2 (get_org_context_accepts_what_is_truthy (PyInt 0) boot)).
    reflexivity.
Defined.

Lemma constructor_and_org_context_agree_witness :
  BaseWorkflow.construct "MockWorkflow" (PyStr "org_42") boot
  = (Return org_42, org_42_built) /\
  exists m tenant,
    config_manager.get_org_context (PyStr "org_42") boot = (Return m, boot) /\
    m !! "org_id" = BaseWorkflow.org_id org_42 /\
    m !! "log_prefix" = Some (PyStr ("ALS[" +:+ tenant +:+ "]")) /\
    BaseWorkflow.logger org_42
    = Some (getLogger ("MockWorkflow" +:+ "[" +:+ tenant +:+ "]")).
Proof.
  split; [reflexivity|].
  apply (constructor_and_org_context_agree
           "MockWorkflow" (PyStr "org_42") boot org_42_built boot org_42).
  reflexivity.
Defined.

Lemma storage_prefixes_separate_tenants_witness :
  ("orgs/acme/" = "orgs/acme_eu/" -> "acme" = "acme_eu") /\
  (has_slash "acme" = false -> has_slash "acme_eu" = false ->
   String.prefix "orgs/acme/" "orgs/acme_eu/" = true -> "acme" = "acme_eu").
Proof.
  apply (storage_prefixes_separate_tenants "acme" "acme_eu" boot boot
           {[ "org_id" := PyStr "acme";
              "storage_prefix" := PyStr "orgs/acme/";
              "log_prefix" := PyStr "ALS[acme]" ]}
           {[ "org_id" := PyStr "acme_eu";
              "storage_prefix" := PyStr "orgs/acme_eu/";
              "log_prefix" := PyStr "ALS[acme_eu]" ]});
    reflexivity.
Defined.

Lemma get_settings_failure_is_not_cached_witness :
  @config_manager.get_settings plain_source None bad_port
  = (Raise {| exc_class := Subclass "ValidationError" ValueError;
              exc_str := "POSTGRES_PORT: Input should be a valid integer";
              exc_id := 7 |},
     None,
     {| trace := []; next_id := 8; environ := {[ "POSTGRES_PORT" := "abc" ]} |}) /\
  @config_manager.load plain_source (environ boot) config_manager.defaults
  = inr config_manager.defaults /\
  @config_manager.get_settings plain_source None boot
  = (Return first_settings, Some first_settings,
     {| trace := []; next_id := 1; environ := ∅ |}).
Proof.
  split; [reflexivity|]. split; [reflexivity|].
  apply (proj2 (proj2 (proj2
           (@get_settings_failure_is_not_cached plain_source bad_port _ _ None
              eq_refl)))).
  reflexivity.
Defined.

Lemma get_settings_calls_agree_witness :
  @config_manager.run plain_source
    [config_manager.GetSettings; config_manager.Other boot;
     config_manager.GetSettings; config_manager.Other bad_port;
     config_manager.GetSettings]
    None bad_port !! 1%nat = Some (Return first_settings) /\
  @config_manager.run plain_source
    [config_manager.GetSettings; config_manager.Other boot;
     config_manager.GetSettings; config_manager.Other bad_port;
     config_manager.GetSettings]
    None bad_port !! 2%nat = Some (Return first_settings) /\
  first_settings = first_settings.
Proof.
  split; [reflexivity|]. split; [reflexivity|].
  apply (@get_settings_calls_agree plain_source
           [config_manager.GetSettings; config_manager.Other boot;
            config_manager.GetSettings; config_manager.Other bad_port;
            config_manager.GetSettings]
           None bad_port 1 2); reflexivity.
Defined.

Lemma health_checks_swallow_Exception_witness :
  @dashboard_app.check_prometheus sample_drivers config_manager.defaults boot
  = (Raise {| exc_class := KeyboardInterrupt; exc_str := EmptyString; exc_id := 0 |},
     {| trace := []; next_id := 1; environ := ∅ |}) /\
  isinstance {| exc_class := KeyboardInterrupt; exc_str := EmptyString; exc_id := 0 |}
    Exception = false.
Proof.
  split; [reflexivity|].
  apply (@health_checks_swallow_Exception sample_drivers config_manager.defaults boot
           {| trace := []; next_id := 1; environ := ∅ |}).
  do 5 right. reflexivity.
Defined.
